(** * Shopping cart (script.js): a shallow embedding and its properties

    The JavaScript classes [Product], [ShoppingCartItem] and [ShoppingCart]
    are embedded as records and functions on them.  A JavaScript number is an
    IEEE 754 binary64 value, so prices, quantities and totals are primitive
    floats and [+], [*] are the binary64 operations.  Product ids are only
    ever compared with [===]; they are integers.

    The [items] array of a cart is a list.  [Array.prototype.find] hands back
    a reference to the first matching element, which [addItem] then mutates
    in place: in the list this is the element at the index [list_find]
    returns, rewritten with [alter]. *)

From Stdlib Require Import ZArith String Floats.PrimFloat.
From stdpp Require Import base decidable option numbers list.

Set Warnings "-inexact-float".
Set Default Proof Using "Type".

Local Open Scope Z_scope.

(** ** Data model *)

(** [class Product]: constructor(id, name, price). *)
Record Product := mkProduct {
  id : Z;
  name : string;
  price : float
}.

(** [class ShoppingCartItem]: constructor(product, quantity). *)
Record ShoppingCartItem := mkItem {
  product : Product;
  quantity : float
}.

(** [class ShoppingCart]: constructor() sets [this.items = []]. *)
Record ShoppingCart := mkCart {
  items : list ShoppingCartItem
}.

Definition emptyCart : ShoppingCart := mkCart [].

(** ** Methods *)

(** [calculateTotal() { return this.product.price * this.quantity; }] *)
Definition calculateTotal (item : ShoppingCartItem) : float :=
  (price (product item) * quantity item)%float.

(** [getTotal()]: [this.items.reduce((total, item) =>
    total + item.calculateTotal(), 0)]. *)
Definition getTotal (cart : ShoppingCart) : float :=
  foldl (λ total item, (total + calculateTotal item)%float) 0%float (items cart).

(** The callback of [find] in [addItem]:
    [item => item.product.id === product.id]. *)
Definition sameId (pid : Z) (item : ShoppingCartItem) : Prop :=
  id (product item) = pid.

#[global] Instance sameId_dec pid item : Decision (sameId pid item).
Proof. unfold sameId. apply _. Defined.

(** [existingItem.quantity += quantity] on the found item. *)
Definition addQuantity (q : float) (item : ShoppingCartItem) : ShoppingCartItem :=
  mkItem (product item) (quantity item + q)%float.

(** [addItem(product, quantity = 1)]. *)
Definition addItem (cart : ShoppingCart) (p : Product) (q : float) : ShoppingCart :=
  match list_find (sameId (id p)) (items cart) with
  | Some (i, _) => mkCart (alter (addQuantity q) i (items cart))
  | None => mkCart (items cart ++ [mkItem p q])
  end.

(** [removeItem(productId)]: [this.items = this.items.filter(item =>
    item.product.id !== productId)]. *)
Definition removeItem (cart : ShoppingCart) (productId : Z) : ShoppingCart :=
  mkCart (filter (λ item, id (product item) ≠ productId) (items cart)).

(** ** The page: catalog, global cart and entry points *)

(** [const products = [...]], the mock database. *)
Definition products : list Product :=
  [ mkProduct 1 "Laptop" 999.99;
    mkProduct 2 "Smartphone" 599.99;
    mkProduct 3 "Headphones" 199.99;
    mkProduct 4 "Smart Watch" 249.50;
    mkProduct 5 "Tablet" 399.00;
    mkProduct 6 "Keyboard" 49.99 ].

(** What [updateCartUI] puts on the page: one row per item (name, quantity,
    line total) and the grand total; the numbers are kept as they are before
    [toFixed(2)] turns them into text.  An empty [rows] stands for the
    "Your cart is empty." paragraph. *)
Record CartView := mkView {
  rows : list (string * float * float);
  totalPrice : float
}.

(** The global state of the script: [myCart] and what the cart area of the
    document shows ([None] until [updateCartUI] has run once). *)
Record Page := mkPage {
  myCart : ShoppingCart;
  cartView : option CartView
}.

Definition initialPage : Page := mkPage emptyCart None.

(** [updateCartUI()] reads [myCart] and redraws the cart area.  The lines
    that [displayCart] writes to the console are not part of the state. *)
Definition updateCartUI (pg : Page) : Page :=
  mkPage (myCart pg)
    (Some (mkView
      ((λ item, (name (product item), quantity item, calculateTotal item))
         <$> items (myCart pg))
      (getTotal (myCart pg)))).

(** [window.addToCart = function(productId) {...}]: [myCart.addItem(product)]
    runs with the default quantity 1. *)
Definition addToCart (pg : Page) (productId : Z) : Page :=
  match list_find (λ p, id p = productId) products with
  | Some (_, p) => updateCartUI (mkPage (addItem (myCart pg) p 1%float) (cartView pg))
  | None => pg
  end.

(** [window.removeFromCart = function(productId) {...}]. *)
Definition removeFromCart (pg : Page) (productId : Z) : Page :=
  updateCartUI (mkPage (removeItem (myCart pg) productId) (cartView pg)).

(** ** Specification-level notions *)

(** The sum of a sequence of numbers, taken from left to right from 0. *)
Definition sum_floats (l : list float) : float :=
  foldl PrimFloat.add 0%float l.

(** The product ids of the lines of a cart, in order. *)
Definition lineIds (cart : ShoppingCart) : list Z :=
  (λ item, id (product item)) <$> items cart.

(** The uniqueness invariant: at most one line per product id. *)
Definition uniqueIds (cart : ShoppingCart) : Prop :=
  NoDup (lineIds cart).

(** A sequence of calls [addItem(p1, q1); addItem(p2, q2); ...] run one
    after the other on the same cart. *)
Definition addItems (cart : ShoppingCart) (calls : list (Product * float))
    : ShoppingCart :=
  foldl (λ c call, addItem c call.1 call.2) cart calls.

(** The quantities [q1, q2, ..., qn] of a sequence of calls added up in call
    order: [q1 + q2 + ... + qn]. *)
Definition sum_quantities (q1 : float) (qs : list float) : float :=
  foldl PrimFloat.add q1 qs.

(** ** Sample carts and the Laptop and Headphones scenario *)

Definition laptop : Product := mkProduct 1 "Laptop" 999.99.
Definition headphones : Product := mkProduct 3 "Headphones" 199.99.

Definition cartLaptop : ShoppingCart := mkCart [mkItem laptop 1].
Definition cartBoth : ShoppingCart :=
  mkCart [mkItem laptop 2; mkItem headphones 1].

(** The scenario: add a Laptop, add a Laptop again, add Headphones, remove
    the Laptop, remove the Laptop again. *)
Definition step1 : ShoppingCart := addItem emptyCart laptop 1.
Definition step2 : ShoppingCart := addItem step1 laptop 1.
Definition step3 : ShoppingCart := addItem step2 headphones 1.
Definition step4 : ShoppingCart := removeItem step3 1.
Definition step5 : ShoppingCart := removeItem step4 1.

(** ** Sequences of operations and of clicks *)

(** A call of one of the two mutating methods of the cart. *)
Inductive CartOp :=
  | OpAdd (p : Product) (q : float)
  | OpRemove (productId : Z).

Definition applyOp (cart : ShoppingCart) (op : CartOp) : ShoppingCart :=
  match op with
  | OpAdd p q => addItem cart p q
  | OpRemove productId => removeItem cart productId
  end.

(** The calls of a sequence run one after the other on the same cart. *)
Definition applyOps (cart : ShoppingCart) (ops : list CartOp) : ShoppingCart :=
  foldl applyOp cart ops.

(** A click on a button of the page: [onclick="addToCart(id)"] or
    [onclick="removeFromCart(id)"]. *)
Inductive PageAction :=
  | ClickAdd (productId : Z)
  | ClickRemove (productId : Z).

Definition applyAction (pg : Page) (a : PageAction) : Page :=
  match a with
  | ClickAdd productId => addToCart pg productId
  | ClickRemove productId => removeFromCart pg productId
  end.

Definition applyActions (pg : Page) (acts : list PageAction) : Page :=
  foldl applyAction pg acts.

(** What the cart area shows when it is drawn from a given cart. *)
Definition viewOf (cart : ShoppingCart) : CartView :=
  mkView
    ((λ item, (name (product item), quantity item, calculateTotal item))
       <$> items cart)
    (getTotal cart).

(** The cart area is up to date: it was drawn from the current cart, or
    nothing was drawn yet and the cart has no lines. *)
Definition viewInSync (pg : Page) : Prop :=
  (cartView pg = None ∧ items (myCart pg) = [])
  ∨ cartView pg = Some (viewOf (myCart pg)).



(** ** The grand total *)

(** C1: for every cart, [getTotal] is the sum, over the lines in order, of
    [product.price * quantity]; on a cart without lines it is 0. *)
Theorem getTotal_sum_of_subtotals (cart : ShoppingCart) :
  getTotal cart
    = sum_floats ((λ item, (price (product item) * quantity item)%float) <$> items cart)
  ∧ getTotal emptyCart = 0%float.
Proof.
  split; [|reflexivity].
  unfold getTotal, sum_floats. by rewrite foldl_fmap.
Qed.

(** ** How [find] and the in-place update act on the list *)

Section find_first.
Context {A : Type} (P : A → Prop) `{!∀ x, Decision (P x)}.

(** A successful [find] splits the array at the first match. *)
Lemma list_find_split (l : list A) (i : nat) (x : A) :
  list_find P l = Some (i, x) →
  ∃ l1 l2, l = l1 ++ x :: l2 ∧ length l1 = i ∧ Forall (λ y, ¬ P y) l1 ∧ P x.
Proof.
  intros (Hi & HP & Hlt)%list_find_Some.
  exists (take i l), (drop (S i) l). split_and!.
  - by rewrite take_drop_middle.
  - rewrite length_take. apply lookup_lt_Some in Hi. lia.
  - apply Forall_lookup. intros j y Hj.
    assert (j < i)%nat.
    { apply lookup_lt_Some in Hj. rewrite length_take in Hj. lia. }
    rewrite lookup_take_lt in Hj by done. eauto.
  - done.
Qed.

(** Conversely the first match of [l1 ++ x :: l2] is [x] when nothing in
    [l1] matches. *)
Lemma list_find_first (l1 l2 : list A) (x : A) :
  Forall (λ y, ¬ P y) l1 → P x →
  list_find P (l1 ++ x :: l2) = Some (length l1, x).
Proof.
  intros Hl1 Hx. apply list_find_app_Some. right. split_and!.
  - lia.
  - by apply list_find_None.
  - rewrite Nat.sub_diag. simpl. by rewrite decide_True.
Qed.

Lemma alter_first (f : A → A) (l1 l2 : list A) (x : A) :
  alter f (length l1) (l1 ++ x :: l2) = l1 ++ f x :: l2.
Proof.
  rewrite <-(Nat.add_0_r (length l1)) at 1. by rewrite alter_app_r.
Qed.
End find_first.

(** ** The two branches of [addItem] *)

Lemma addItem_existing (cart : ShoppingCart) (p : Product) (q : float)
    (l1 l2 : list ShoppingCartItem) (it : ShoppingCartItem) :
  items cart = l1 ++ it :: l2 →
  Forall (λ x, id (product x) ≠ id p) l1 →
  id (product it) = id p →
  items (addItem cart p q)
    = l1 ++ mkItem (product it) (quantity it + q)%float :: l2.
Proof.
  intros Hsplit Hl1 Hit. unfold addItem. rewrite Hsplit.
  rewrite (list_find_first (sameId (id p))) by done.
  simpl. by rewrite alter_first.
Qed.

Lemma addItem_fresh (cart : ShoppingCart) (p : Product) (q : float) :
  Forall (λ x, id (product x) ≠ id p) (items cart) →
  items (addItem cart p q) = items cart ++ [mkItem p q].
Proof.
  intros Hnone. unfold addItem.
  by rewrite (proj2 (list_find_None (sameId (id p)) (items cart)) Hnone).
Qed.

(** Every call of [addItem] goes through one of the two branches. *)
Lemma addItem_cases (cart : ShoppingCart) (p : Product) (q : float) :
  (∃ l1 it l2,
      items cart = l1 ++ it :: l2
      ∧ Forall (λ x, id (product x) ≠ id p) l1
      ∧ id (product it) = id p
      ∧ items (addItem cart p q)
          = l1 ++ mkItem (product it) (quantity it + q)%float :: l2)
  ∨ (Forall (λ x, id (product x) ≠ id p) (items cart)
      ∧ items (addItem cart p q) = items cart ++ [mkItem p q]).
Proof.
  destruct (list_find (sameId (id p)) (items cart)) as [[i x]|] eqn:Hfind.
  - left. apply list_find_split in Hfind as (l1 & l2 & Hsplit & _ & Hl1 & Hx).
    exists l1, x, l2. split_and!; [done..|].
    by apply addItem_existing.
  - right. apply list_find_None in Hfind. split; [done|].
    by apply addItem_fresh.
Qed.

Lemma no_line_Forall (l : list ShoppingCartItem) (pid : Z) :
  (∀ it, it ∈ l → id (product it) ≠ pid) ↔ Forall (λ x, id (product x) ≠ pid) l.
Proof. by rewrite Forall_forall. Qed.

Lemma some_line_split (l : list ShoppingCartItem) (pid : Z) :
  (∃ it, it ∈ l ∧ id (product it) = pid) →
  ∃ l1 it l2, l = l1 ++ it :: l2
    ∧ Forall (λ x, id (product x) ≠ pid) l1 ∧ id (product it) = pid.
Proof.
  intros (it & Hin & Hid).
  destruct (list_find_elem_of (sameId pid) l it Hin Hid) as [[i x] Hfind].
  apply list_find_split in Hfind as (l1 & l2 & ? & _ & ? & ?).
  by exists l1, x, l2.
Qed.

(** The ids of the lines after [addItem]. *)
Lemma lineIds_addItem (cart : ShoppingCart) (p : Product) (q : float) :
  ((id p ∈ lineIds cart) ∧ lineIds (addItem cart p q) = lineIds cart)
  ∨ ((id p ∉ lineIds cart) ∧ lineIds (addItem cart p q) = lineIds cart ++ [id p]).
Proof.
  unfold lineIds.
  destruct (addItem_cases cart p q) as [(l1 & it & l2 & Hs & _ & Hit & ->)|[Hn ->]].
  - left. rewrite Hs, !fmap_app, !fmap_cons. simpl. split; [|done].
    rewrite <-Hit, elem_of_app, elem_of_cons. auto.
  - right. rewrite fmap_app. split; [|done].
    intros (x & Hx & Hin)%list_elem_of_fmap.
    rewrite Forall_forall in Hn. by apply (Hn x).
Qed.

(** [removeItem] keeps a subsequence of the lines. *)
Lemma lineIds_removeItem (cart : ShoppingCart) (pid : Z) :
  lineIds (removeItem cart pid) `sublist_of` lineIds cart.
Proof. unfold lineIds. simpl. apply fmap_sublist, sublist_filter. Qed.

(** ** Uniqueness of lines *)

(** C2: a cart with at most one line per product id still has at most one
    line per product id after [addItem(product, quantity)] and after
    [removeItem(productId)]. *)
Theorem uniqueIds_preserved (cart : ShoppingCart) :
  uniqueIds cart →
  (∀ p q, uniqueIds (addItem cart p q))
  ∧ (∀ productId, uniqueIds (removeItem cart productId)).
Proof.
  unfold uniqueIds. intros Huniq. split.
  - intros p q.
    destruct (lineIds_addItem cart p q) as [[_ ->]|[Hfresh ->]]; [done|].
    apply NoDup_app. split_and!; [done| |apply NoDup_singleton].
    intros x Hx ->%list_elem_of_singleton. done.
  - intros productId.
    eapply sublist_NoDup; [done|]. apply lineIds_removeItem.
Qed.

Lemma uniqueIds_preserved_witness :
  uniqueIds (addItem cartBoth headphones 1)
  ∧ uniqueIds (removeItem cartBoth 1).
Proof.
  assert (Hu : uniqueIds cartBoth).
  { unfold uniqueIds. apply (bool_decide_unpack _). vm_compute. reflexivity. }
  destruct (uniqueIds_preserved cartBoth Hu) as [Hadd Hrem].
  split; [apply Hadd|apply Hrem].
Defined.

(** ** Adding a product *)

(** C3: [addItem(product, quantity)] on any cart: when some line has the
    id of [product], the line [find] returns (the first such line) gets its
    quantity increased by [quantity], whatever the result is, and nothing
    else changes; when no line has that id, the line (product, quantity) is
    put at the end, after the existing lines in their order. *)
Theorem addItem_increments_or_appends
    (cart : ShoppingCart) (p : Product) (q : float) :
  ((∃ it, it ∈ items cart ∧ id (product it) = id p) →
     ∃ l1 it l2,
       items cart = l1 ++ it :: l2
       ∧ Forall (λ x, id (product x) ≠ id p) l1
       ∧ id (product it) = id p
       ∧ items (addItem cart p q)
           = l1 ++ mkItem (product it) (quantity it + q)%float :: l2)
  ∧ ((∀ it, it ∈ items cart → id (product it) ≠ id p) →
     items (addItem cart p q) = items cart ++ [mkItem p q]).
Proof.
  split.
  - intros (l1 & it & l2 & Hs & Hl1 & Hit)%some_line_split.
    exists l1, it, l2. split_and!; [done..|].
    by apply addItem_existing.
  - intros Hnone%no_line_Forall. by apply addItem_fresh.
Qed.

Lemma addItem_increments_or_appends_witness :
  ((∃ it, it ∈ items cartBoth ∧ id (product it) = id headphones) ∧
   ∃ l1 it l2,
     items cartBoth = l1 ++ it :: l2
     ∧ Forall (λ x, id (product x) ≠ id headphones) l1
     ∧ id (product it) = id headphones
     ∧ items (addItem cartBoth headphones 7)
         = l1 ++ mkItem (product it) (quantity it + 7)%float :: l2)
  ∧ ((∀ it, it ∈ items cartLaptop → id (product it) ≠ id headphones) ∧
     items (addItem cartLaptop headphones 7)
       = items cartLaptop ++ [mkItem headphones 7]).
Proof.
  assert (Hsome : ∃ it, it ∈ items cartBoth ∧ id (product it) = id headphones).
  { exists (mkItem headphones 1). split; [|reflexivity]. simpl. repeat constructor. }
  assert (Hnone : ∀ it, it ∈ items cartLaptop → id (product it) ≠ id headphones).
  { simpl. intros it ->%list_elem_of_singleton. simpl. lia. }
  split; (split; [done|]).
  - exact (proj1 (addItem_increments_or_appends cartBoth headphones 7) Hsome).
  - exact (proj2 (addItem_increments_or_appends cartLaptop headphones 7) Hnone).
Defined.

(** C6: [addItem] with a product whose id no line has makes the cart one
    line longer; with a product whose id some line has, the number of lines
    stays the same. *)
Theorem addItem_line_count (cart : ShoppingCart) (p : Product) (q : float) :
  ((∀ it, it ∈ items cart → id (product it) ≠ id p) →
     length (items (addItem cart p q)) = S (length (items cart)))
  ∧ ((∃ it, it ∈ items cart ∧ id (product it) = id p) →
     length (items (addItem cart p q)) = length (items cart)).
Proof.
  split.
  - intros Hnone%no_line_Forall.
    rewrite addItem_fresh by done. rewrite length_app. simpl. lia.
  - intros (l1 & it & l2 & Hs & Hl1 & Hit)%some_line_split.
    rewrite (addItem_existing cart p q l1 l2 it) by done.
    rewrite Hs, !length_app. done.
Qed.

Lemma addItem_line_count_witness :
  ((∀ it, it ∈ items cartLaptop → id (product it) ≠ id headphones) ∧
   length (items (addItem cartLaptop headphones 1)) = S (length (items cartLaptop)))
  ∧ ((∃ it, it ∈ items cartBoth ∧ id (product it) = id laptop) ∧
     length (items (addItem cartBoth laptop 1)) = length (items cartBoth)).
Proof.
  assert (Hnone : ∀ it, it ∈ items cartLaptop → id (product it) ≠ id headphones).
  { simpl. intros it ->%list_elem_of_singleton. simpl. lia. }
  assert (Hsome : ∃ it, it ∈ items cartBoth ∧ id (product it) = id laptop).
  { exists (mkItem laptop 2). split; [|reflexivity]. simpl. repeat constructor. }
  split; (split; [done|]).
  - exact (proj1 (addItem_line_count cartLaptop headphones 1) Hnone).
  - exact (proj2 (addItem_line_count cartBoth laptop 1) Hsome).
Defined.

(** ** Removing a product *)

(** [filter] keeps a list whose elements all pass the test. *)
Lemma filter_all_pass {A : Type} (P : A → Prop) `{!∀ x, Decision (P x)}
    (l : list A) :
  Forall P l → filter P l = l.
Proof.
  induction 1 as [|x l Hx _ IH]; [done|].
  by rewrite filter_cons_True, IH.
Qed.

(** C4: [removeItem(id)] leaves exactly the lines whose product id differs
    from [id], so every line with that id is gone; when no line has the id
    the cart after the call is the cart before it, and a second call with
    the same id changes nothing more. *)
Theorem removeItem_removes_every_match (cart : ShoppingCart) (productId : Z) :
  (∀ it, it ∈ items (removeItem cart productId)
         ↔ it ∈ items cart ∧ id (product it) ≠ productId)
  ∧ ((∀ it, it ∈ items cart → id (product it) ≠ productId) →
     removeItem cart productId = cart)
  ∧ removeItem (removeItem cart productId) productId
      = removeItem cart productId.
Proof.
  split_and!.
  - intros it. simpl. rewrite list_elem_of_filter. tauto.
  - intros Hnone%no_line_Forall. destruct cart as [l]. unfold removeItem.
    simpl in *. f_equal. by apply filter_all_pass.
  - unfold removeItem. simpl. f_equal. by apply list_filter_filter_l.
Qed.

Lemma removeItem_removes_every_match_witness :
  (∀ it, it ∈ items cartBoth → id (product it) ≠ 5)
  ∧ removeItem cartBoth 5 = cartBoth.
Proof.
  assert (Hnone : ∀ it, it ∈ items cartBoth → id (product it) ≠ 5).
  { simpl. intros it [->| ->%list_elem_of_singleton]%elem_of_cons; simpl; lia. }
  split; [done|].
  exact (proj1 (proj2 (removeItem_removes_every_match cartBoth 5)) Hnone).
Defined.

(** C9: [removeItem(id)] keeps the remaining lines as they were and in the
    order they had: the new sequence is a subsequence of the old one, and
    every line with another id stays between what is left of the lines
    before it and what is left of the lines after it. *)
Theorem removeItem_keeps_order (cart : ShoppingCart) (productId : Z) :
  items (removeItem cart productId) `sublist_of` items cart
  ∧ (∀ l1 it l2,
       items cart = l1 ++ it :: l2 →
       id (product it) ≠ productId →
       items (removeItem cart productId)
         = items (removeItem (mkCart l1) productId)
             ++ it :: items (removeItem (mkCart l2) productId)).
Proof.
  split.
  - apply sublist_filter.
  - intros l1 it l2 Hs Hit. simpl. rewrite Hs, filter_app.
    by rewrite filter_cons_True.
Qed.

Lemma removeItem_keeps_order_witness :
  items cartBoth = [mkItem laptop 2] ++ mkItem headphones 1 :: []
  ∧ id (product (mkItem headphones 1)) ≠ 1
  ∧ items (removeItem cartBoth 1)
      = items (removeItem (mkCart [mkItem laptop 2]) 1)
          ++ mkItem headphones 1 :: items (removeItem (mkCart []) 1).
Proof.
  assert (Hs : items cartBoth = [mkItem laptop 2] ++ mkItem headphones 1 :: [])
    by reflexivity.
  assert (Hid : id (product (mkItem headphones 1)) ≠ 1) by (simpl; lia).
  split_and!; [done..|].
  exact (proj2 (removeItem_keeps_order cartBoth 1) _ _ _ Hs Hid).
Defined.

(** ** Repeated adds of one product *)

(** When adding to 0 leaves the first quantity as it is, the sum in call
    order is the sum from 0 of the whole sequence. *)
Lemma sum_quantities_from_zero (q1 : float) (qs : list float) :
  (0 + q1)%float = q1 → sum_floats (q1 :: qs) = sum_quantities q1 qs.
Proof. unfold sum_floats, sum_quantities. simpl. by intros ->. Qed.

Lemma cart_eta (cart : ShoppingCart) : cart = mkCart (items cart).
Proof. by destruct cart. Qed.

Lemma filter_none_pass {A : Type} (P : A → Prop) `{!∀ x, Decision (P x)}
    (l : list A) :
  Forall (λ x, ¬ P x) l → filter P l = [].
Proof.
  induction 1 as [|x l Hx _ IH]; [done|].
  by rewrite filter_cons_False.
Qed.

(** Once the line of a product is the last one, later adds of that id only
    grow its quantity. *)
Lemma addItems_last_line (l : list ShoppingCartItem) (p1 : Product)
    (q : float) (rest : list (Product * float)) :
  Forall (λ x, id (product x) ≠ id p1) l →
  Forall (λ call, id call.1 = id p1) rest →
  addItems (mkCart (l ++ [mkItem p1 q])) rest
    = mkCart (l ++ [mkItem p1 (sum_quantities q rest.*2)]).
Proof.
  intros Hl Hrest. revert q.
  induction Hrest as [|[p q'] rest Hp _ IH]; intros q; [done|].
  simpl in Hp. unfold addItems. simpl. fold (addItems).
  rewrite (cart_eta (addItem _ p q')).
  rewrite (addItem_existing _ p q' l [] (mkItem p1 q)); simpl.
  - apply IH.
  - done.
  - by rewrite Hp.
  - done.
Qed.

(** C5: starting from a cart without a line for an id, after any sequence
    of (one or more) [addItem] calls whose products all have that id, the
    cart has the old lines followed by a single line for the id, and that
    line's quantity is the sum of the quantities of the calls. *)
Theorem addItems_same_id_one_line
    (cart : ShoppingCart) (k : Z) (p1 : Product) (q1 : float)
    (rest : list (Product * float)) :
  (∀ it, it ∈ items cart → id (product it) ≠ k) →
  id p1 = k →
  Forall (λ call, id call.1 = k) rest →
  items (addItems cart ((p1, q1) :: rest))
    = items cart ++ [mkItem p1 (sum_quantities q1 rest.*2)]
  ∧ filter (sameId k) (items (addItems cart ((p1, q1) :: rest)))
    = [mkItem p1 (sum_quantities q1 rest.*2)].
Proof.
  intros Hnone%no_line_Forall <- Hrest.
  assert (Hrun : addItems cart ((p1, q1) :: rest)
            = mkCart (items cart ++ [mkItem p1 (sum_quantities q1 rest.*2)])).
  { unfold addItems. simpl. fold addItems.
    rewrite (cart_eta (addItem cart p1 q1)), addItem_fresh by done.
    by apply addItems_last_line. }
  rewrite Hrun. simpl. split; [done|].
  rewrite filter_app, (filter_none_pass (sameId (id p1))) by done.
  by rewrite filter_cons_True.
Qed.

Lemma addItems_same_id_one_line_witness :
  items (addItems cartLaptop
           [(headphones, 1%float); (headphones, 2%float); (headphones, 4%float)])
    = [mkItem laptop 1; mkItem headphones 7]
  ∧ filter (sameId 3)
      (items (addItems cartLaptop
           [(headphones, 1%float); (headphones, 2%float); (headphones, 4%float)]))
    = [mkItem headphones 7].
Proof.
  apply (addItems_same_id_one_line cartLaptop 3 headphones 1
           [(headphones, 2%float); (headphones, 4%float)]).
  - simpl. intros it ->%list_elem_of_singleton. simpl. lia.
  - reflexivity.
  - repeat constructor.
Defined.

(** ** The "add product by id" entry point *)

(** [products.find(p => p.id === productId)] on an id of the catalog. *)
Lemma products_find_known (productId : Z) :
  productId ∈ id <$> products →
  ∃ i p, list_find (λ p, id p = productId) products = Some (i, p)
         ∧ p ∈ products ∧ id p = productId.
Proof.
  intros (p0 & -> & Hin)%list_elem_of_fmap.
  destruct (list_find_elem_of (λ p, id p = id p0) products p0 Hin eq_refl)
    as [[i p] Hfind].
  exists i, p. split; [done|].
  apply list_find_Some in Hfind as (Hi & Hp & _).
  split; [|done]. by eapply list_elem_of_lookup_2.
Qed.

(** C8: for an id that no catalog product has, [addToCart] returns without
    touching anything: the cart and the displayed cart are as before, and
    there is no other outcome. *)
Theorem addToCart_unknown_id (pg : Page) (productId : Z) :
  productId ∉ id <$> products →
  addToCart pg productId = pg.
Proof.
  intros Hunknown. unfold addToCart.
  assert (Hfind : list_find (λ p, id p = productId) products = None).
  { apply list_find_None, Forall_forall. intros p Hin Hp.
    apply Hunknown, list_elem_of_fmap. by exists p. }
  by rewrite Hfind.
Qed.

Lemma addToCart_unknown_id_witness :
  addToCart (mkPage cartBoth None) 7 = mkPage cartBoth None.
Proof.
  apply addToCart_unknown_id.
  apply (bool_decide_unpack _). vm_compute. reflexivity.
Defined.

(** C10: for an id of the catalog, [addToCart] adds the catalog product with
    quantity 1: when the cart has no line for the id, the line (product, 1)
    is appended; when it has one, that line's quantity becomes
    [quantity + 1] and the other lines stay as they are. *)
Theorem addToCart_adds_one (pg : Page) (productId : Z) :
  productId ∈ id <$> products →
  ∃ p, p ∈ products ∧ id p = productId
    ∧ ((∀ it, it ∈ items (myCart pg) → id (product it) ≠ productId) →
       items (myCart (addToCart pg productId))
         = items (myCart pg) ++ [mkItem p 1])
    ∧ ((∃ it, it ∈ items (myCart pg) ∧ id (product it) = productId) →
       ∃ l1 it l2,
         items (myCart pg) = l1 ++ it :: l2
         ∧ Forall (λ x, id (product x) ≠ productId) l1
         ∧ id (product it) = productId
         ∧ items (myCart (addToCart pg productId))
             = l1 ++ mkItem (product it) (quantity it + 1)%float :: l2).
Proof.
  intros (i & p & Hfind & Hin & Hp)%products_find_known.
  exists p. split_and!; [done..| |]; unfold addToCart; rewrite Hfind; simpl.
  - intros Hnone%no_line_Forall. apply addItem_fresh. by rewrite Hp.
  - intros (l1 & it & l2 & Hs & Hl1 & Hit)%some_line_split.
    exists l1, it, l2. split_and!; [done..|].
    apply addItem_existing; by rewrite ?Hp.
Qed.

Lemma addToCart_adds_one_witness :
  ∃ p, p ∈ products ∧ id p = 3
    ∧ ((∀ it, it ∈ items (myCart (mkPage cartBoth None)) → id (product it) ≠ 3) →
       items (myCart (addToCart (mkPage cartBoth None) 3))
         = items (myCart (mkPage cartBoth None)) ++ [mkItem p 1])
    ∧ ((∃ it, it ∈ items (myCart (mkPage cartBoth None)) ∧ id (product it) = 3) →
       ∃ l1 it l2,
         items (myCart (mkPage cartBoth None)) = l1 ++ it :: l2
         ∧ Forall (λ x, id (product x) ≠ 3) l1
         ∧ id (product it) = 3
         ∧ items (myCart (addToCart (mkPage cartBoth None) 3))
             = l1 ++ mkItem (product it) (quantity it + 1)%float :: l2).
Proof.
  apply (addToCart_adds_one (mkPage cartBoth None) 3).
  apply (bool_decide_unpack _). vm_compute. reflexivity.
Defined.

(** Three clicks on the Headphones button of the initial page. *)
Example addToCart_three_clicks :
  items (myCart (addToCart (addToCart (addToCart initialPage 3) 3) 3))
    = [mkItem headphones 3]
  ∧ cartView (addToCart (addToCart (addToCart initialPage 3) 3) 3)
    = Some (mkView [("Headphones"%string, 3%float, 599.97%float)] 599.97).
Proof. split; reflexivity. Qed.

(** ** The scenario of the catalog's Laptop and Headphones *)

Lemma scenario_products_in_catalog :
  products !! 0%nat = Some laptop ∧ products !! 2%nat = Some headphones.
Proof. split; reflexivity. Qed.

(** Two numbers the comparison [===] tells apart are different. *)
Lemma float_neq (x y : float) :
  PrimFloat.eqb y y = true → PrimFloat.eqb x y = false → x ≠ y.
Proof. intros Hy Hxy ->. congruence. Qed.

(** The scenario with the totals 999.99, 1999.98, 2199.97, 199.99, 199.99
    fails at the third step: the total of the cart with two Laptops and one
    Headphones is not the number 2199.97. *)
Lemma scenario_total_after_headphones_not_2199_97 :
  ¬ (step1 = mkCart [mkItem laptop 1] ∧ getTotal step1 = 999.99%float
     ∧ step2 = mkCart [mkItem laptop 2] ∧ getTotal step2 = 1999.98%float
     ∧ length (items step3) = 2%nat ∧ getTotal step3 = 2199.97%float
     ∧ step4 = mkCart [mkItem headphones 1] ∧ getTotal step4 = 199.99%float
     ∧ step5 = step4 ∧ getTotal step5 = 199.99%float).
Proof.
  intros (_ & _ & _ & _ & _ & Htotal & _).
  revert Htotal. apply float_neq; reflexivity.
Qed.

(** C7, amended: the scenario goes as described except that the total after
    adding the Headphones is the binary64 sum of 1999.98 and 199.99, which
    is 2199.9700000000003, the number next above 2199.97; the two are less
    than a hundredth of a cent apart. *)
Theorem scenario_laptop_headphones :
  step1 = mkCart [mkItem laptop 1] ∧ getTotal step1 = 999.99%float
  ∧ step2 = mkCart [mkItem laptop 2] ∧ getTotal step2 = 1999.98%float
  ∧ step3 = mkCart [mkItem laptop 2; mkItem headphones 1]
  ∧ getTotal step3 = 2199.9700000000003%float
  ∧ getTotal step3 = next_up 2199.97%float
  ∧ PrimFloat.ltb (abs (getTotal step3 - 2199.97)) 0.0001 = true
  ∧ step4 = mkCart [mkItem headphones 1] ∧ getTotal step4 = 199.99%float
  ∧ step5 = step4 ∧ getTotal step5 = 199.99%float.
Proof. split_and!; reflexivity. Qed.

(** ** How [addItem] and [removeItem] compose *)

Lemma Forall_filter_keep {A : Type} (P Q : A → Prop) `{!∀ x, Decision (P x)}
    (l : list A) :
  Forall Q l → Forall Q (filter P l).
Proof.
  intros Hl. apply Forall_forall. intros x [_ Hx]%list_elem_of_filter.
  rewrite Forall_forall in Hl. auto.
Qed.

(** X1: removing a product right after adding it gives the same cart as
    removing it without the add; in particular, when the cart had no line
    for the product, add followed by remove gives back the cart. *)
Theorem removeItem_after_addItem (cart : ShoppingCart) (p : Product) (q : float) :
  removeItem (addItem cart p q) (id p) = removeItem cart (id p)
  ∧ ((∀ it, it ∈ items cart → id (product it) ≠ id p) →
     removeItem (addItem cart p q) (id p) = cart).
Proof.
  assert (Hrem : removeItem (addItem cart p q) (id p) = removeItem cart (id p)).
  { unfold removeItem. f_equal.
    destruct (addItem_cases cart p q) as [(l1 & it & l2 & Hs & _ & Hit & ->)|[_ ->]].
    - rewrite Hs, !filter_app, !filter_cons_False; [done|..]; simpl; tauto.
    - rewrite filter_app, filter_cons_False by (simpl; tauto).
      by rewrite filter_nil, app_nil_r. }
  split; [done|].
  intros Hnone%no_line_Forall. rewrite Hrem. destruct cart as [l].
  unfold removeItem. simpl in *. f_equal. by apply filter_all_pass.
Qed.

Lemma removeItem_after_addItem_witness :
  (∀ it, it ∈ items cartLaptop → id (product it) ≠ id headphones)
  ∧ removeItem (addItem cartLaptop headphones 4) (id headphones) = cartLaptop.
Proof.
  assert (Hnone : ∀ it, it ∈ items cartLaptop → id (product it) ≠ id headphones).
  { simpl. intros it ->%list_elem_of_singleton. simpl. lia. }
  split; [done|].
  exact (proj2 (removeItem_after_addItem cartLaptop headphones 4) Hnone).
Defined.

(** X2: adding a product and removing another one can be done in either
    order. *)
Theorem removeItem_addItem_commute
    (cart : ShoppingCart) (p : Product) (q : float) (productId : Z) :
  productId ≠ id p →
  removeItem (addItem cart p q) productId
    = addItem (removeItem cart productId) p q.
Proof.
  intros Hne.
  rewrite (cart_eta (addItem (removeItem cart productId) p q)).
  unfold removeItem at 1. f_equal.
  destruct (addItem_cases cart p q) as [(l1 & it & l2 & Hs & Hl1 & Hit & ->)|[Hn ->]].
  - rewrite filter_app, filter_cons_True by (simpl; congruence).
    symmetry. apply addItem_existing; [|by apply Forall_filter_keep|done].
    simpl. rewrite Hs, filter_app, filter_cons_True by congruence. done.
  - rewrite filter_app, filter_cons_True by (simpl; congruence).
    rewrite filter_nil. symmetry.
    apply (addItem_fresh (removeItem cart productId)).
    by apply Forall_filter_keep.
Qed.

Lemma removeItem_addItem_commute_witness :
  removeItem (addItem cartBoth headphones 2) 1
    = addItem (removeItem cartBoth 1) headphones 2.
Proof.
  apply (removeItem_addItem_commute cartBoth headphones 2 1). simpl. lia.
Defined.

(** X3: two removals can be done in either order. *)
Theorem removeItem_removeItem_commute (cart : ShoppingCart) (a b : Z) :
  removeItem (removeItem cart a) b = removeItem (removeItem cart b) a.
Proof.
  unfold removeItem. simpl. f_equal. rewrite !list_filter_filter.
  apply list_filter_iff. tauto.
Qed.

(** ** Lines, ids and totals after one call *)

(** In a cart with one line per id, the line of an id splits the others into
    lines that all have other ids. *)
Lemma unique_line_split (cart : ShoppingCart) (productId : Z) :
  uniqueIds cart →
  productId ∈ lineIds cart →
  ∃ l1 it l2, items cart = l1 ++ it :: l2
    ∧ id (product it) = productId
    ∧ Forall (λ x, id (product x) ≠ productId) l1
    ∧ Forall (λ x, id (product x) ≠ productId) l2.
Proof.
  unfold uniqueIds, lineIds. intros Huniq (it0 & Hid & Hin)%list_elem_of_fmap.
  destruct (some_line_split (items cart) productId) as (l1 & it & l2 & Hs & Hl1 & Hit).
  { by exists it0. }
  exists l1, it, l2. split_and!; [done..|].
  rewrite Hs, fmap_app, fmap_cons in Huniq.
  apply NoDup_app in Huniq as (_ & _ & [Hnot _]%NoDup_cons).
  apply Forall_forall. intros x Hx Hxid. apply Hnot.
  rewrite Hit, <-Hxid. by apply (list_elem_of_fmap_2 (λ item, id (product item))).
Qed.

(** X4: in a cart with at most one line per product id, removing an id that
    has a line takes away exactly that one line: the other lines stay, in
    order, and the cart is one line shorter. *)
Theorem removeItem_present_unique (cart : ShoppingCart) (productId : Z) :
  uniqueIds cart →
  productId ∈ lineIds cart →
  (∃ l1 it l2, items cart = l1 ++ it :: l2
     ∧ id (product it) = productId
     ∧ items (removeItem cart productId) = l1 ++ l2)
  ∧ length (items cart) = S (length (items (removeItem cart productId))).
Proof.
  intros Huniq Hin.
  destruct (unique_line_split cart productId Huniq Hin)
    as (l1 & it & l2 & Hs & Hit & Hl1 & Hl2).
  assert (Hrem : items (removeItem cart productId) = l1 ++ l2).
  { simpl. rewrite Hs, filter_app, filter_cons_False by tauto.
    by rewrite !filter_all_pass. }
  split.
  - by exists l1, it, l2.
  - rewrite Hrem, Hs, !length_app. simpl. lia.
Qed.

Lemma removeItem_present_unique_witness :
  (∃ l1 it l2, items cartBoth = l1 ++ it :: l2
     ∧ id (product it) = 1
     ∧ items (removeItem cartBoth 1) = l1 ++ l2)
  ∧ length (items cartBoth) = S (length (items (removeItem cartBoth 1))).
Proof.
  apply (removeItem_present_unique cartBoth 1).
  - unfold uniqueIds. apply (bool_decide_unpack _). vm_compute. reflexivity.
  - apply (bool_decide_unpack _). vm_compute. reflexivity.
Defined.

(** X5: adding a product that has no line yet raises the total by the new
    line's [price * quantity], added last. *)
Theorem getTotal_addItem_fresh (cart : ShoppingCart) (p : Product) (q : float) :
  (∀ it, it ∈ items cart → id (product it) ≠ id p) →
  getTotal (addItem cart p q) = (getTotal cart + price p * q)%float.
Proof.
  intros Hnone%no_line_Forall. unfold getTotal.
  rewrite addItem_fresh by done. by rewrite foldl_snoc.
Qed.

Lemma getTotal_addItem_fresh_witness :
  getTotal (addItem cartLaptop headphones 2)
    = (getTotal cartLaptop + price headphones * 2)%float.
Proof.
  apply (getTotal_addItem_fresh cartLaptop headphones 2).
  simpl. intros it ->%list_elem_of_singleton. simpl. lia.
Defined.

(** X6: after [addItem(product, quantity)] the cart has a line for the
    product's id, and for every other id it has a line exactly when it had
    one before. *)
Theorem lineIds_after_addItem
    (cart : ShoppingCart) (p : Product) (q : float) (k : Z) :
  k ∈ lineIds (addItem cart p q) ↔ k = id p ∨ k ∈ lineIds cart.
Proof.
  destruct (lineIds_addItem cart p q) as [[Hin ->]|[_ ->]].
  - split; [auto|]. by intros [->|?].
  - rewrite elem_of_app, list_elem_of_singleton. tauto.
Qed.

(** X7: [addItem] leaves the lines of every other product id as they are. *)
Theorem addItem_other_lines_unchanged
    (cart : ShoppingCart) (p : Product) (q : float) (k : Z) :
  k ≠ id p →
  filter (sameId k) (items (addItem cart p q)) = filter (sameId k) (items cart).
Proof.
  intros Hne. unfold sameId.
  destruct (addItem_cases cart p q) as [(l1 & it & l2 & Hs & _ & Hit & ->)|[_ ->]].
  - rewrite Hs, !filter_app, !filter_cons_False; [done|..]; simpl; congruence.
  - rewrite filter_app, filter_cons_False by (simpl; congruence).
    by rewrite filter_nil, app_nil_r.
Qed.

Lemma addItem_other_lines_unchanged_witness :
  filter (sameId 1) (items (addItem cartBoth headphones 5))
    = filter (sameId 1) (items cartBoth).
Proof.
  apply (addItem_other_lines_unchanged cartBoth headphones 5 1). simpl. lia.
Defined.

(** The products of the lines after [addItem]: the same, or one more at the
    end. *)
Lemma products_addItem (cart : ShoppingCart) (p : Product) (q : float) :
  product <$> items (addItem cart p q) = product <$> items cart
  ∨ product <$> items (addItem cart p q) = (product <$> items cart) ++ [p].
Proof.
  destruct (addItem_cases cart p q) as [(l1 & it & l2 & Hs & _ & _ & ->)|[_ ->]].
  - left. by rewrite Hs, !fmap_app, !fmap_cons.
  - right. by rewrite fmap_app.
Qed.

(** X8: [addItem] never replaces, drops or reorders the products already in
    the cart, also when it is handed another product object with the id of
    an existing line: the old sequence of products is a prefix of the new
    one. *)
Theorem addItem_keeps_products (cart : ShoppingCart) (p : Product) (q : float) :
  (product <$> items cart) `prefix_of` (product <$> items (addItem cart p q)).
Proof.
  destruct (products_addItem cart p q) as [-> | ->].
  - done.
  - by apply prefix_app_r.
Qed.

(** ** Carts built by the methods *)

Lemma uniqueIds_addItem (cart : ShoppingCart) (p : Product) (q : float) :
  uniqueIds cart → uniqueIds (addItem cart p q).
Proof.
  unfold uniqueIds. intros Huniq.
  destruct (lineIds_addItem cart p q) as [[_ ->]|[Hfresh ->]]; [done|].
  apply NoDup_app. split_and!; [done| |apply NoDup_singleton].
  by intros x Hx ->%list_elem_of_singleton.
Qed.

Lemma uniqueIds_removeItem (cart : ShoppingCart) (productId : Z) :
  uniqueIds cart → uniqueIds (removeItem cart productId).
Proof.
  unfold uniqueIds. intros Huniq.
  eapply sublist_NoDup; [done|]. apply lineIds_removeItem.
Qed.

Lemma uniqueIds_applyOps (cart : ShoppingCart) (ops : list CartOp) :
  uniqueIds cart → uniqueIds (applyOps cart ops).
Proof.
  revert cart. induction ops as [|op ops IH]; intros cart Huniq; [done|].
  apply IH. destruct op; simpl.
  - by apply uniqueIds_addItem.
  - by apply uniqueIds_removeItem.
Qed.

(** X9: whatever sequence of [addItem] and [removeItem] calls is run on a
    new cart, with any products and quantities, the cart never holds two
    lines with the same product id. *)
Theorem new_cart_always_uniqueIds (ops : list CartOp) :
  uniqueIds (applyOps emptyCart ops).
Proof. apply uniqueIds_applyOps. unfold uniqueIds. simpl. constructor. Qed.

(** [existingItem.quantity += quantity] does not move the first line of an
    id: [find] returns the same index before and after. *)
Lemma list_find_addQuantity (k : Z) (q : float) (j : nat)
    (l : list ShoppingCartItem) :
  fst <$> list_find (sameId k) (alter (addQuantity q) j l)
    = fst <$> list_find (sameId k) l.
Proof.
  assert (Hshift : ∀ o o' : option (nat * ShoppingCartItem),
            fst <$> o = fst <$> o' →
            fst <$> (prod_map S Datatypes.id <$> o)
              = fst <$> (prod_map S Datatypes.id <$> o')).
  { intros [[??]|] [[??]|] ?; simplify_eq/=; done. }
  revert j. induction l as [|x l IH]; intros j; [done|].
  destruct j as [|j]; simpl.
  - destruct (decide (sameId k x)) as [Hx|Hx].
    + by rewrite decide_True.
    + by rewrite decide_False.
  - destruct (decide (sameId k x)); [done|]. apply Hshift, IH.
Qed.

(** X10: when the cart has a line for each of two products with different
    ids, adding to the one and adding to the other can be done in either
    order. *)
Theorem addItem_addItem_commute
    (cart : ShoppingCart) (p1 p2 : Product) (q1 q2 : float) :
  id p1 ≠ id p2 →
  id p1 ∈ lineIds cart →
  id p2 ∈ lineIds cart →
  addItem (addItem cart p1 q1) p2 q2 = addItem (addItem cart p2 q2) p1 q1.
Proof.
  intros Hne (x1 & Hx1 & Hin1)%list_elem_of_fmap (x2 & Hx2 & Hin2)%list_elem_of_fmap.
  destruct (list_find_elem_of (sameId (id p1)) (items cart) x1 Hin1 (eq_sym Hx1))
    as [[i y1] Hf1].
  destruct (list_find_elem_of (sameId (id p2)) (items cart) x2 Hin2 (eq_sym Hx2))
    as [[j y2] Hf2].
  assert (Hij : i ≠ j).
  { intros ->. apply list_find_Some in Hf1 as (Hl1 & Hy1 & _).
    apply list_find_Some in Hf2 as (Hl2 & Hy2 & _).
    unfold sameId in *. congruence. }
  pose proof (list_find_addQuantity (id p2) q1 i (items cart)) as H21.
  pose proof (list_find_addQuantity (id p1) q2 j (items cart)) as H12.
  rewrite Hf2 in H21. rewrite Hf1 in H12.
  unfold addItem at 2 4. rewrite Hf1, Hf2. unfold addItem. simpl.
  destruct (list_find (sameId (id p2)) (alter (addQuantity q1) i (items cart)))
    as [[j' ?]|]; simplify_eq/=.
  destruct (list_find (sameId (id p1)) (alter (addQuantity q2) j (items cart)))
    as [[i' ?]|]; simplify_eq/=.
  f_equal. by apply list_alter_alter_ne.
Qed.

Lemma addItem_addItem_commute_witness :
  addItem (addItem cartBoth laptop 3) headphones 4
    = addItem (addItem cartBoth headphones 4) laptop 3.
Proof.
  apply (addItem_addItem_commute cartBoth laptop headphones 3 4).
  - simpl. lia.
  - apply (bool_decide_unpack _). vm_compute. reflexivity.
  - apply (bool_decide_unpack _). vm_compute. reflexivity.
Defined.

(** ** The page under clicks *)

Lemma updateCartUI_viewOf (pg : Page) :
  updateCartUI pg = mkPage (myCart pg) (Some (viewOf (myCart pg))).
Proof. reflexivity. Qed.

(** The two ways [addToCart] can go. *)
Lemma addToCart_cases (pg : Page) (productId : Z) :
  ((productId ∉ id <$> products) ∧ addToCart pg productId = pg)
  ∨ (∃ p, p ∈ products ∧ id p = productId
       ∧ addToCart pg productId
           = mkPage (addItem (myCart pg) p 1)
               (Some (viewOf (addItem (myCart pg) p 1)))).
Proof.
  unfold addToCart.
  destruct (list_find (λ p, id p = productId) products) as [[i p]|] eqn:Hfind.
  - right. exists p. apply list_find_Some in Hfind as (Hi & Hp & _).
    split_and!; [by eapply list_elem_of_lookup_2|done..].
  - left. split; [|done]. apply list_find_None in Hfind.
    intros (p & -> & Hin)%list_elem_of_fmap.
    rewrite Forall_forall in Hfind. by apply (Hfind p).
Qed.

(** The cart of a page is well formed when no two lines share an id and
    every line holds a product of the catalog. *)
Lemma applyAction_cart_wellformed (pg : Page) (a : PageAction) :
  uniqueIds (myCart pg) ∧ Forall (λ it, product it ∈ products) (items (myCart pg)) →
  uniqueIds (myCart (applyAction pg a))
  ∧ Forall (λ it, product it ∈ products) (items (myCart (applyAction pg a))).
Proof.
  intros [Huniq Hcat]. destruct a as [k|k]; simpl.
  - destruct (addToCart_cases pg k) as [[_ ->]|(p & Hp & _ & ->)]; [done|].
    simpl. split; [by apply uniqueIds_addItem|].
    apply (Forall_fmap product (λ x, x ∈ products)).
    apply (Forall_fmap product (λ x, x ∈ products)) in Hcat.
    destruct (products_addItem (myCart pg) p 1) as [-> | ->]; [done|].
    apply Forall_app. split; [done|]. by apply Forall_singleton.
  - split; [by apply uniqueIds_removeItem|]. by apply Forall_filter_keep.
Qed.

(** X11: after any sequence of clicks on "Add to Cart" and "Remove" buttons,
    with any ids, starting from the freshly loaded page, the cart has at
    most one line per product id and every line holds a product of the
    catalog. *)
Theorem clicks_keep_cart_wellformed (acts : list PageAction) :
  uniqueIds (myCart (applyActions initialPage acts))
  ∧ Forall (λ it, product it ∈ products)
      (items (myCart (applyActions initialPage acts))).
Proof.
  assert (Hgen : ∀ pg,
    uniqueIds (myCart pg) ∧ Forall (λ it, product it ∈ products) (items (myCart pg)) →
    uniqueIds (myCart (applyActions pg acts))
    ∧ Forall (λ it, product it ∈ products) (items (myCart (applyActions pg acts)))).
  { induction acts as [|a acts IH]; intros pg Hpg; [done|].
    apply IH. by apply applyAction_cart_wellformed. }
  apply Hgen. split; [|done]. unfold uniqueIds. simpl. constructor.
Qed.

Lemma applyAction_viewInSync (pg : Page) (a : PageAction) :
  viewInSync pg → viewInSync (applyAction pg a).
Proof.
  intros Hsync. destruct a as [k|k]; simpl.
  - destruct (addToCart_cases pg k) as [[_ ->]|(p & _ & _ & ->)]; [done|].
    by right.
  - by right.
Qed.

(** X12: after any sequence of clicks from the freshly loaded page, the cart
    area of the page is up to date: either nothing was drawn yet and the
    cart has no lines, or the rows and the total shown are those of the
    current cart. *)
Theorem clicks_keep_view_in_sync (acts : list PageAction) :
  viewInSync (applyActions initialPage acts).
Proof.
  assert (Hgen : ∀ pg, viewInSync pg → viewInSync (applyActions pg acts)).
  { induction acts as [|a acts IH]; intros pg Hpg; [done|].
    apply IH. by apply applyAction_viewInSync. }
  apply Hgen. by left.
Qed.

(** X13: [removeFromCart] with an id that has no line, on a page whose cart
    area was drawn from the current cart, leaves the cart and the cart
    area as they are. *)
Theorem removeFromCart_absent_id (pg : Page) (productId : Z) :
  cartView pg = Some (viewOf (myCart pg)) →
  (∀ it, it ∈ items (myCart pg) → id (product it) ≠ productId) →
  removeFromCart pg productId = pg.
Proof.
  intros Hview Hnone%no_line_Forall.
  assert (Hrem : removeItem (myCart pg) productId = myCart pg).
  { destruct (myCart pg) as [l]. unfold removeItem. simpl in *. f_equal.
    by apply filter_all_pass. }
  unfold removeFromCart. rewrite updateCartUI_viewOf. simpl.
  rewrite Hrem, <-Hview. by destruct pg.
Qed.

Lemma removeFromCart_absent_id_witness :
  removeFromCart (mkPage cartBoth (Some (viewOf cartBoth))) 5
    = mkPage cartBoth (Some (viewOf cartBoth)).
Proof.
  apply removeFromCart_absent_id.
  - reflexivity.
  - simpl. intros it [->| ->%list_elem_of_singleton]%elem_of_cons; simpl; lia.
Defined.


